(** * thermopack: addon/pyUtils/exports/export_list.py

    A shallow embedding of the export-list generator: the registry of
    exported symbols, the name-mangling resolver [get_export_statement],
    the per-linker header and footer, and [write_def_file], which writes
    one manifest.  Python strings are [string], the integer constants
    naming compilers and linkers are [Z], the module-level list [exports]
    and the file system are fields of an explicit world that the stateful
    functions thread through. *)

From Stdlib Require Import ZArith Ascii.
From stdpp Require Import base gmap strings list.

Local Open Scope Z_scope.

(** ** Strings *)

(** The two escape sequences the source uses in its literals. *)
Definition TAB : string := String (ascii_of_nat 9) EmptyString.
Definition NL : string := String (ascii_of_nat 10) EmptyString.

(** ** Data model *)

(** One element of [exports]: the dictionary built by [append_export],
    with its three keys 'method', 'module' and 'isBindC'.  A module that
    is [None] in Python is [None] here. *)
Record export_info : Type := ExportInfo {
  method : string;
  module : option string;
  isBindC : bool
}.

(** FORTRAN compilers *)
Definition GNU : Z := 1.
Definition IFORT : Z := 2.
Definition PGF90 : Z := 3.
Definition GENERIC : Z := 4.

(** Linkers *)
Definition LD_GCC : Z := 1.
Definition LD_CLANG : Z := 2.
Definition LD_MSVC : Z := 3.

(** ** The mangling resolver *)

Definition get_export_statement (compiler : Z) (export_info : export_info)
  : string :=
  let export_statement := "" in
  match module export_info with
  | None =>
      if isBindC export_info then method export_info
      else method export_info +:+ "_"
  | Some module_name =>
      if compiler =? GNU then
        (("__" +:+ module_name) +:+ "_MOD_") +:+ method export_info
      else if compiler =? IFORT then
        ((module_name +:+ "_mp_") +:+ method export_info) +:+ "_"
      else if compiler =? PGF90 then
        ((module_name +:+ "_") +:+ method export_info) +:+ "_"
      else if compiler =? GENERIC then
        ("*" +:+ method export_info) +:+ "*"
      else export_statement
  end.

(** ** The file emitter: header and footer *)

(** [datetime.today().isoformat()] is the one input the function takes
    from its environment; the embedding receives the text as [now]. *)
Definition get_export_header (now : string) (linker : Z) : string :=
  let header :=
    "# File generated by thermopack/addon/pyUtils/exports/export_list.py" in
  let header := header +:+ ((NL +:+ "# Time stamp: ") +:+ now) in
  if linker =? LD_GCC then
    header +:+ (NL +:+ "libthermopack {" +:+ NL
                +:+ "# Explicit list of symbols to be exported" +:+ NL
                +:+ "  global:")
  else if linker =? LD_CLANG then
    header +:+ (NL +:+ "# Explicit list of symbols to be exported")
  else if linker =? LD_MSVC then
    header +:+ (NL +:+ "; @NAME@.def : Declares the module parameters."
                +:+ NL +:+ NL +:+ "LIBRARY" +:+ NL +:+ NL +:+ "EXPORTS")
  else header.

Definition get_export_footer (linker : Z) : option string :=
  let footer := None in
  if linker =? LD_GCC then
    Some (NL +:+ "  local: *;      # hide everything else" +:+ NL +:+ "};")
  else footer.

(** ** The world and the monad of the stateful functions *)

(** What the stateful functions read and write: the module-level list
    [exports], and the file system, a finite map from paths to contents
    together with the set of paths that cannot be opened for writing. *)
Record world : Type := World {
  exports : list export_info;
  files : gmap string string;
  unwritable : gset string
}.

(** The exceptions the embedded code can meet: indexing a list out of
    range, and [open] on a path that cannot be written. *)
Inductive exn : Type :=
  | IndexError
  | OSError (filename : string).

Inductive outcome (A : Type) : Type :=
  | Done (a : A)
  | Raised (e : exn).
Arguments Done {A} a.
Arguments Raised {A} e.

Definition M (A : Type) : Type := world -> outcome A * world.

Definition ret {A} (a : A) : M A := fun w => (Done a, w).

Definition bind {A B} (m : M A) (k : A -> M B) : M B :=
  fun w =>
    match m w with
    | (Done a, w') => k a w'
    | (Raised e, w') => (Raised e, w')
    end.

Notation "x <- m ;; k" := (bind m (fun x => k))
  (at level 100, m at next level, right associativity).
Notation "m ;; k" := (bind m (fun _ => k))
  (at level 100, right associativity).

(** [for x in xs: acc = body(x, acc)] *)
Fixpoint for_each {A S} (xs : list A) (body : A -> S -> M S) (acc : S)
  : M S :=
  match xs with
  | [] => ret acc
  | x :: xs' => acc' <- body x acc ;; for_each xs' body acc'
  end.

(** [len(exports)] *)
Definition len_exports : M nat := fun w => (Done (length (exports w)), w).

(** [exports[i]], for the non-negative indices the loop produces. *)
Definition exports_at (i : nat) : M export_info :=
  fun w =>
    match exports w !! i with
    | Some d => (Done d, w)
    | None => (Raised IndexError, w)
    end.

(** [open(filename, "w")]: the file is created or truncated. *)
Definition open_w (filename : string) : M unit :=
  fun w =>
    if decide (filename ∈ unwritable w) then (Raised (OSError filename), w)
    else (Done tt,
          World (exports w) (<[filename := ""]> (files w)) (unwritable w)).

(** [f.write(s)] on the file opened at [filename]. *)
Definition write (filename : string) (s : string) : M unit :=
  fun w =>
    (Done tt,
     World (exports w) (alter (fun c => c +:+ s) filename (files w))
           (unwritable w)).

(** ** Orchestration *)

(** [now] is the clock reading that the call of [get_export_header]
    takes.  The [with] block is [open_w] followed by the writing loop;
    [open] is the one step that can fail. *)
Definition write_def_file (now : string) (compiler linker : Z)
    (filename : string) : M unit :=
  let lines : list string := [] in
  let header := get_export_header now linker in
  let lines := lines ++ [header] in
  n <- len_exports ;;
  lines <- for_each (seq 0 n) (fun i lines =>
    export_info <- exports_at i ;;
    let export_statement := get_export_statement compiler export_info in
    if linker =? LD_GCC then
      ret (lines ++ [(TAB +:+ export_statement) +:+ ";"])
    else if (linker =? LD_CLANG) || (linker =? LD_MSVC) then
      ret (lines ++ [TAB +:+ export_statement])
    else ret lines) lines ;;
  let footer := get_export_footer linker in
  let lines := match footer with
               | Some footer => lines ++ [footer]
               | None => lines
               end in
  open_w filename ;;
  for_each lines (fun line (_ : unit) =>
    write filename line ;;
    write filename NL) tt.

(** The defaults [module=None, isBindC=False] are written out at the
    calls. *)
Definition append_export (method : string) (module : option string)
    (isBindC : bool) : M unit :=
  fun w =>
    (Done tt,
     World (exports w ++ [ExportInfo method module isBindC]) (files w)
           (unwritable w)).

(** The module-level statements that fill [exports], in source order. *)
Definition register_exports : M unit :=
  append_export "thermopack_init_c" None true ;;
  append_export "thermopack_init_c" None true ;;
  append_export "thermopack_pressure_c" None true ;;
  append_export "thermopack_specific_volume_c" None true ;;
  append_export "thermopack_tpflash_c" None true ;;
  append_export "thermopack_uvflash_c" None true ;;
  append_export "thermopack_hpflash_c" None true ;;
  append_export "thermopack_spflash_c" None true ;;
  append_export "thermopack_bubt_c" None true ;;
  append_export "thermopack_bubp_c" None true ;;
  append_export "thermopack_dewt_c" None true ;;
  append_export "thermopack_dewp_c" None true ;;
  append_export "thermopack_zfac_c" None true ;;
  append_export "thermopack_enthalpy_c" None true ;;
  append_export "thermopack_entropy_c" None true ;;
  append_export "thermopack_wilsonk_c" None true ;;
  append_export "thermopack_wilsonki_c" None true ;;
  append_export "thermopack_getcriticalparam_c" None true ;;
  append_export "thermopack_moleweight_c" None true ;;
  append_export "thermopack_compmoleweight_c" None true ;;
  append_export "thermopack_puresat_t_c" None true ;;
  append_export "thermopack_entropy_tv_c" None true ;;
  append_export "thermopack_twophase_dhdt_c" None true ;;
  append_export "thermopack_guess_phase_c" None true ;;
  append_export "thermopack_thermo_c" None true ;;
  append_export "get_phase_flags_c" None true ;;
  append_export "thermopack_getkij" None false ;;
  append_export "thermopack_setkijandji" None false ;;
  append_export "thermopack_gethvparam" None false ;;
  append_export "thermopack_sethvparam" None false ;;
  append_export "thermopack_get_volume_shift_parameters" None false ;;
  append_export "thermopack_set_volume_shift_parameters" None false ;;
  append_export "get_bp_term" (Some "binaryplot") false ;;
  append_export "vllebinaryxy" (Some "binaryplot") false ;;
  append_export "global_binary_plot" (Some "binaryplot") false ;;
  append_export "comp_index_active" (Some "compdata") false ;;
  append_export "comp_name_active" (Some "compdata") false ;;
  append_export "calccriticaltv" (Some "critical") false ;;
  append_export "specificvolume" (Some "eos") false ;;
  append_export "zfac" (Some "eos") false ;;
  append_export "thermo" (Some "eos") false ;;
  append_export "entropy" (Some "eos") false ;;
  append_export "enthalpy" (Some "eos") false ;;
  append_export "compmoleweight" (Some "eos") false ;;
  append_export "idealenthalpysingle" (Some "eos") false ;;
  append_export "init_thermo" (Some "eoslibinit") false ;;
  append_export "init_cubic" (Some "eoslibinit") false ;;
  append_export "init_cpa" (Some "eoslibinit") false ;;
  append_export "init_pcsaft" (Some "eoslibinit") false ;;
  append_export "init_saftvrmie" (Some "eoslibinit") false ;;
  append_export "init_quantum_cubic" (Some "eoslibinit") false ;;
  append_export "init_tcpr" (Some "eoslibinit") false ;;
  append_export "init_quantum_saftvrmie" (Some "eoslibinit") false ;;
  append_export "init_extcsp" (Some "eoslibinit") false ;;
  append_export "init_lee_kesler" (Some "eoslibinit") false ;;
  append_export "init_multiparameter" (Some "eoslibinit") false ;;
  append_export "init_pets" (Some "eoslibinit") false ;;
  append_export "init_volume_translation" (Some "eoslibinit") false ;;
  append_export "redefine_critical_parameters" (Some "eoslibinit") false ;;
  append_export "internal_energy" (Some "eostv") false ;;
  append_export "entropytv" (Some "eostv") false ;;
  append_export "pressure" (Some "eostv") false ;;
  append_export "thermotv" (Some "eostv") false ;;
  append_export "enthalpytv" (Some "eostv") false ;;
  append_export "free_energy" (Some "eostv") false ;;
  append_export "chemical_potential" (Some "eostv") false ;;
  append_export "virial_coefficients" (Some "eostv") false ;;
  append_export "secondvirialcoeffmatrix" (Some "eostv") false ;;
  append_export "binarythirdvirialcoeffmatrix" (Some "eostv") false ;;
  append_export "isobar" (Some "isolines") false ;;
  append_export "isotherm" (Some "isolines") false ;;
  append_export "isenthalp" (Some "isolines") false ;;
  append_export "isentrope" (Some "isolines") false ;;
  append_export "setphtolerance" (Some "ph_solver") false ;;
  append_export "twophasephflash" (Some "ph_solver") false ;;
  append_export "twophasepsflash" (Some "ps_solver") false ;;
  append_export "get_saftvrmie_eps_kij" (Some "saftvrmie_containers") false ;;
  append_export "set_saftvrmie_eps_kij" (Some "saftvrmie_containers") false ;;
  append_export "get_saftvrmie_sigma_lij" (Some "saftvrmie_containers") false ;;
  append_export "set_saftvrmie_sigma_lij" (Some "saftvrmie_containers") false ;;
  append_export "get_saftvrmie_lr_gammaij" (Some "saftvrmie_containers") false ;;
  append_export "set_saftvrmie_lr_gammaij" (Some "saftvrmie_containers") false ;;
  append_export "get_saftvrmie_pure_fluid_param" (Some "saftvrmie_containers") false ;;
  append_export "set_saftvrmie_pure_fluid_param" (Some "saftvrmie_containers") false ;;
  append_export "cpa_get_kij" (Some "saft_interface") false ;;
  append_export "cpa_set_kij" (Some "saft_interface") false ;;
  append_export "pc_saft_get_kij" (Some "saft_interface") false ;;
  append_export "pc_saft_set_kij_asym" (Some "saft_interface") false ;;
  append_export "enable_hs" (Some "saftvrmie_options") false ;;
  append_export "enable_a1" (Some "saftvrmie_options") false ;;
  append_export "enable_a2" (Some "saftvrmie_options") false ;;
  append_export "enable_a3" (Some "saftvrmie_options") false ;;
  append_export "enable_chain" (Some "saftvrmie_options") false ;;
  append_export "safe_bubt" (Some "saturation") false ;;
  append_export "safe_bubp" (Some "saturation") false ;;
  append_export "safe_dewt" (Some "saturation") false ;;
  append_export "safe_dewp" (Some "saturation") false ;;
  append_export "envelopeplot" (Some "saturation_curve") false ;;
  append_export "solid_init" (Some "solideos") false ;;
  append_export "solidenvelopeplot" (Some "solid_saturation") false ;;
  append_export "sound_velocity_2ph" (Some "speed_of_sound") false ;;
  append_export "guessphase" (Some "thermo_utils") false ;;
  append_export "rgas" (Some "thermopack_constants") false ;;
  append_export "tptmin" (Some "thermopack_constants") false ;;
  append_export "tppmin" (Some "thermopack_constants") false ;;
  append_export "add_eos" (Some "thermopack_var") false ;;
  append_export "delete_eos" (Some "thermopack_var") false ;;
  append_export "activate_model" (Some "thermopack_var") false ;;
  append_export "get_eos_identification" (Some "thermopack_var") false ;;
  append_export "twophasetpflash" (Some "tp_solver") false ;;
  append_export "twophasesvflash" (Some "sv_solver") false ;;
  append_export "twophaseuvflash" (Some "uv_solver") false.

(** The block under [if __name__ == "__main__"]; each call reads the
    clock once. *)
Definition main (now1 now2 now3 : string) : M unit :=
  write_def_file now1 GENERIC LD_GCC "libthermopack_export.version" ;;
  write_def_file now2 GENERIC LD_CLANG "libthermopack_export.symbols" ;;
  write_def_file now3 IFORT LD_MSVC "thermopack.def".

(** The world in which the module is loaded: [exports = []]. *)
Definition world0 (fs : gmap string string) (ro : gset string) : world :=
  World [] fs ro.

(** The registry once the module is loaded. *)
Definition registry : list export_info :=
  Eval vm_compute in exports (snd (register_exports (world0 ∅ ∅))).

(** A run of several generations, one after the other. *)
Definition generate_all (calls : list (string * Z * Z * string)) : M unit :=
  for_each calls (fun call (_ : unit) =>
    let '(now, compiler, linker, filename) := call in
    write_def_file now compiler linker filename) tt.

(** ** The text of a manifest *)

(** What the writing loop leaves in the file: every element of [lines]
    followed by a newline. *)
Definition file_text (lines : list string) : string :=
  foldr (fun line rest => line +:+ NL +:+ rest) "" lines.

(** The body lines that the loop of [write_def_file] appends for a
    registry, by linker. *)
Definition body_lines (compiler linker : Z) (ds : list export_info)
  : list string :=
  if linker =? LD_GCC then
    map (fun d => (TAB +:+ get_export_statement compiler d) +:+ ";") ds
  else if (linker =? LD_CLANG) || (linker =? LD_MSVC) then
    map (fun d => TAB +:+ get_export_statement compiler d) ds
  else [].

(** The value of [lines] when [write_def_file] opens the file. *)
Definition manifest_lines (now : string) (compiler linker : Z)
    (ds : list export_info) : list string :=
  [get_export_header now linker]
  ++ body_lines compiler linker ds
  ++ match get_export_footer linker with
     | Some footer => [footer]
     | None => []
     end.

(** The first line of every header, and the literal footer of a version
    script. *)
Definition TOOL_LINE : string :=
  "# File generated by thermopack/addon/pyUtils/exports/export_list.py".
Definition FOOTER : string :=
  "  local: *;      # hide everything else" +:+ NL +:+ "};".

(** What [get_export_header] appends after the time stamp. *)
Definition linker_banner (linker : Z) : string :=
  if linker =? LD_GCC then
    NL +:+ "libthermopack {" +:+ NL
    +:+ "# Explicit list of symbols to be exported" +:+ NL +:+ "  global:"
  else if linker =? LD_CLANG then
    NL +:+ "# Explicit list of symbols to be exported"
  else if linker =? LD_MSVC then
    NL +:+ "; @NAME@.def : Declares the module parameters."
    +:+ NL +:+ NL +:+ "LIBRARY" +:+ NL +:+ NL +:+ "EXPORTS"
  else "".

(** The label that opens the hiding block of a version script. *)
Definition LOCAL : string := "local:".

(** [occurs pat s]: the text [pat] appears somewhere in [s]. *)
Definition occurs (pat s : string) : Prop :=
  ∃ pre post : string, s = pre +:+ pat +:+ post.

Fixpoint starts_with (pat s : string) : bool :=
  match pat, s with
  | EmptyString, _ => true
  | String p pat', String c s' => Ascii.eqb p c && starts_with pat' s'
  | String _ _, EmptyString => false
  end.

(** The boolean test for [occurs]. *)
Fixpoint occursb (pat s : string) : bool :=
  starts_with pat s
  || match s with
     | EmptyString => false
     | String _ s' => occursb pat s'
     end.

Fixpoint has_char (c : ascii) (s : string) : bool :=
  match s with
  | EmptyString => false
  | String x s' => Ascii.eqb c x || has_char c s'
  end.

(** * Properties *)

(** ** Strings *)

Section StringFacts.

Lemma append_assoc (a b c : string) : (a +:+ b) +:+ c = a +:+ (b +:+ c).
Proof.
  induction a as [|x a IH]; [reflexivity|].
  change (String x ((a +:+ b) +:+ c) = String x (a +:+ (b +:+ c))).
  by f_equal.
Qed.

Lemma append_nil_r (a : string) : a +:+ "" = a.
Proof.
  induction a as [|x a IH]; [reflexivity|].
  change (String x (a +:+ "") = String x a). by f_equal.
Qed.

Lemma file_text_app (l1 l2 : list string) :
  file_text (l1 ++ l2) = file_text l1 +:+ file_text l2.
Proof.
  induction l1 as [|x l1 IH]; cbn [app file_text foldr]; [reflexivity|].
  fold (file_text (l1 ++ l2)). fold (file_text l1).
  by rewrite IH, !append_assoc.
Qed.

Lemma file_text_snoc (l : list string) (x : string) :
  file_text (l ++ [x]) = file_text l +:+ x +:+ NL.
Proof.
  rewrite file_text_app. cbn [file_text foldr]. by rewrite append_nil_r.
Qed.

End StringFacts.

(** ** The loops of [write_def_file] *)

Section Loops.

Variables (compiler linker : Z).

(** The loop over [range(len(exports))], started at index [k] with
    [m] iterations left. *)
Lemma body_loop (w : world) (m k : nat) (lines : list string) :
  (k + m)%nat = length (exports w) →
  for_each (seq k m) (fun i lines =>
    export_info <- exports_at i ;;
    let export_statement := get_export_statement compiler export_info in
    if linker =? LD_GCC then
      ret (lines ++ [(TAB +:+ export_statement) +:+ ";"])
    else if (linker =? LD_CLANG) || (linker =? LD_MSVC) then
      ret (lines ++ [TAB +:+ export_statement])
    else ret lines) lines w
  = (Done (lines ++ body_lines compiler linker (drop k (exports w))), w).
Proof.
  revert k lines. induction m as [|m IH]; intros k lines Hlen.
  - simpl. rewrite drop_ge by lia.
    unfold ret, body_lines. by repeat case_match; rewrite app_nil_r.
  - destruct (lookup_lt_is_Some_2 (exports w) k) as [d Hd]; [lia|].
    rewrite (drop_S _ _ _ Hd).
    specialize (IH (S k)).
    cbn [seq for_each]. unfold bind at 1. unfold bind at 1.
    unfold exports_at at 1. rewrite Hd.
    unfold body_lines in *.
    destruct (linker =? LD_GCC); [|destruct ((linker =? LD_CLANG) || (linker =? LD_MSVC))];
      unfold ret at 1; rewrite IH by lia; cbn [map];
      by rewrite <- ?app_assoc.
Qed.

(** The loop that writes [lines] into the open file. *)
Lemma write_loop (filename : string) (lines : list string) :
  ∀ (ds : list export_info) (fs : gmap string string) (ro : gset string)
    (c : string),
  for_each lines (fun line (_ : unit) =>
    write filename line ;; write filename NL) tt
    (World ds (<[filename := c]> fs) ro)
  = (Done tt, World ds (<[filename := c +:+ file_text lines]> fs) ro).
Proof.
  induction lines as [|line lines IH]; intros ds fs ro c.
  - simpl. by rewrite append_nil_r.
  - cbn [for_each file_text foldr]. unfold bind at 1. unfold bind at 1.
    unfold write at 1. cbn [exports files unwritable].
    unfold write at 1. cbn [exports files unwritable].
    rewrite !alter_insert_eq, IH.
    fold (file_text lines). by rewrite !append_assoc.
Qed.

End Loops.

(** What one call of [write_def_file] does, whatever its arguments. *)
Lemma write_def_file_run (now : string) (compiler linker : Z)
    (filename : string) (w : world) :
  write_def_file now compiler linker filename w =
    if decide (filename ∈ unwritable w)
    then (Raised (OSError filename), w)
    else (Done tt,
          World (exports w)
                (<[filename :=
                     file_text (manifest_lines now compiler linker (exports w))]>
                   (files w))
                (unwritable w)).
Proof.
  unfold write_def_file.
  unfold bind at 1. unfold len_exports.
  unfold bind at 1. rewrite body_loop by reflexivity.
  rewrite drop_0.
  unfold bind at 1. unfold open_w.
  destruct (decide (filename ∈ unwritable w)) as [Hro|Hrw]; [reflexivity|].
  unfold manifest_lines. cbn [app].
  destruct (get_export_footer linker) as [footer|].
  - by rewrite write_loop.
  - by rewrite write_loop, app_nil_r.
Qed.

(** ** The header *)

Lemma get_export_header_split (now : string) (linker : Z) :
  get_export_header now linker
  = TOOL_LINE +:+ NL +:+ "# Time stamp: " +:+ now +:+ linker_banner linker.
Proof.
  unfold get_export_header, linker_banner. fold TOOL_LINE.
  repeat case_match; rewrite ?append_assoc, ?append_nil_r; reflexivity.
Qed.

(** Whatever follows the time stamp starts on a new line. *)
Lemma after_stamp_starts_line (linker : Z) (s : string) :
  ∃ rest : string, linker_banner linker +:+ NL +:+ s = NL +:+ rest.
Proof.
  unfold linker_banner. repeat case_match; rewrite ?append_assoc; by eexists.
Qed.

(** ** The mangling resolver *)

(** C1. For a declaration whose module is present, the resolver returns
    the compiler-specific form: GNU gives "__" + module + "_MOD_" +
    symbol, IFORT gives module + "_mp_" + symbol + "_", PGF90 gives
    module + "_" + symbol + "_", and GENERIC gives "*" + symbol + "*",
    whatever the module and the binding flag; for module "eos" and
    symbol "zfac" these are __eos_MOD_zfac, eos_mp_zfac_, eos_zfac_ and
    the wildcard on zfac. *)
Theorem get_export_statement_module_present
    (symbol_name module_name : string) (is_c_bound : bool) :
  let d := ExportInfo symbol_name (Some module_name) is_c_bound in
  (get_export_statement GNU d
     = "__" +:+ module_name +:+ "_MOD_" +:+ symbol_name
   ∧ get_export_statement IFORT d
     = module_name +:+ "_mp_" +:+ symbol_name +:+ "_"
   ∧ get_export_statement PGF90 d
     = module_name +:+ "_" +:+ symbol_name +:+ "_"
   ∧ get_export_statement GENERIC d = "*" +:+ symbol_name +:+ "*")
  ∧ (let zfac := ExportInfo "zfac" (Some "eos") is_c_bound in
     get_export_statement GNU zfac = "__eos_MOD_zfac"
     ∧ get_export_statement IFORT zfac = "eos_mp_zfac_"
     ∧ get_export_statement PGF90 zfac = "eos_zfac_"
     ∧ get_export_statement GENERIC zfac = "*zfac*").
Proof.
  split.
  - unfold get_export_statement; cbn [module method Z.eqb GNU IFORT PGF90
      GENERIC Pos.eqb].
    by rewrite !append_assoc.
  - by destruct is_c_bound.
Qed.

(** C2. For a declaration whose module is absent, and for every compiler
    identity, the resolver returns the symbol name unchanged when the
    symbol is C-bound, and the symbol name followed by "_" when it is
    not. *)
Theorem get_export_statement_module_absent
    (compiler : Z) (symbol_name : string) :
  get_export_statement compiler (ExportInfo symbol_name None true)
    = symbol_name
  ∧ get_export_statement compiler (ExportInfo symbol_name None false)
    = symbol_name +:+ "_".
Proof. split; reflexivity. Qed.

(** C10. When the module is present the resolver does not look at the
    binding flag, for every compiler identity: two declarations that
    differ only in the flag resolve to the same name, so a declaration
    with a module and the flag set is module-mangled like any other. *)
Theorem get_export_statement_ignores_isBindC
    (compiler : Z) (symbol_name module_name : string) (b1 b2 : bool) :
  get_export_statement compiler (ExportInfo symbol_name (Some module_name) b1)
  = get_export_statement compiler (ExportInfo symbol_name (Some module_name) b2)
  ∧ get_export_statement GNU (ExportInfo "zfac" (Some "eos") true)
    = "__eos_MOD_zfac".
Proof. split; reflexivity. Qed.

(** ** Identities outside the closed sets *)

(** C3, as the claim states it, fails: a compiler identity that is none
    of the four resolves a module-present declaration to the empty
    string, and with a linker identity that is none of the three the
    generation completes and leaves a file holding the provenance lines
    only. *)
Lemma unrecognized_identity_is_not_fatal :
  let w := World [ExportInfo "zfac" (Some "eos") false] ∅ ∅ in
  get_export_statement 5 (ExportInfo "zfac" (Some "eos") false) = ""
  ∧ write_def_file "2024-01-01T00:00:00" GENERIC 7 "out.def" w
    = (Done tt,
       World [ExportInfo "zfac" (Some "eos") false]
             {[ "out.def" :=
                  TOOL_LINE +:+ NL +:+ "# Time stamp: 2024-01-01T00:00:00"
                  +:+ NL ]}
             ∅)
  ∧ ¬ (∃ e : exn,
         fst (write_def_file "2024-01-01T00:00:00" GENERIC 7 "out.def" w)
         = Raised e).
Proof.
  intros w.
  assert (write_def_file "2024-01-01T00:00:00" GENERIC 7 "out.def" w
          = (Done tt,
             World [ExportInfo "zfac" (Some "eos") false]
                   {[ "out.def" :=
                        TOOL_LINE +:+ NL
                        +:+ "# Time stamp: 2024-01-01T00:00:00" +:+ NL ]}
                   ∅)) as Hrun.
  { rewrite write_def_file_run. cbn [unwritable exports files w].
    destruct (decide ("out.def" ∈ (∅ : gset string))) as [Hin|_];
      [by apply not_elem_of_empty in Hin|].
    reflexivity. }
  split; [reflexivity|]. split; [exact Hrun|].
  rewrite Hrun. by intros [e He].
Qed.

(** C3, amended. A compiler identity outside GNU, IFORT, PGF90, GENERIC
    makes the resolver return the empty string for a module-present
    declaration; a linker identity outside LD_GCC, LD_CLANG, LD_MSVC
    makes [write_def_file] write the two provenance lines and nothing
    else; and whatever the identities, a call on a writable path
    completes and writes the file. *)
Theorem unrecognized_identity_falls_through
    (compiler linker : Z) (now filename : string)
    (symbol_name module_name : string) (is_c_bound : bool) (w : world) :
  (compiler ≠ GNU → compiler ≠ IFORT → compiler ≠ PGF90 →
   compiler ≠ GENERIC →
   get_export_statement compiler
     (ExportInfo symbol_name (Some module_name) is_c_bound) = "")
  ∧ (linker ≠ LD_GCC → linker ≠ LD_CLANG → linker ≠ LD_MSVC →
     filename ∉ unwritable w →
     write_def_file now compiler linker filename w
     = (Done tt,
        World (exports w)
              (<[filename :=
                   TOOL_LINE +:+ NL +:+ "# Time stamp: " +:+ now +:+ NL]>
                 (files w))
              (unwritable w)))
  ∧ (filename ∉ unwritable w →
     ∃ text : string,
       write_def_file now compiler linker filename w
       = (Done tt,
          World (exports w) (<[filename := text]> (files w))
                (unwritable w))).
Proof.
  split; [|split].
  - intros H1 H2 H3 H4. unfold get_export_statement. cbn [module].
    destruct (Z.eqb_spec compiler GNU); [done|].
    destruct (Z.eqb_spec compiler IFORT); [done|].
    destruct (Z.eqb_spec compiler PGF90); [done|].
    by destruct (Z.eqb_spec compiler GENERIC).
  - intros H1 H2 H3 Hw. rewrite write_def_file_run.
    destruct (decide (filename ∈ unwritable w)); [done|].
    unfold manifest_lines, body_lines, get_export_header, get_export_footer.
    destruct (Z.eqb_spec linker LD_GCC); [done|].
    destruct (Z.eqb_spec linker LD_CLANG); [done|].
    destruct (Z.eqb_spec linker LD_MSVC); [done|].
    cbn [orb app file_text foldr]. fold TOOL_LINE.
    by rewrite !append_assoc, append_nil_r.
  - intros Hw. rewrite write_def_file_run.
    destruct (decide (filename ∈ unwritable w)); [done|].
    by eexists.
Qed.

Lemma unrecognized_identity_falls_through_witness :
  get_export_statement 5 (ExportInfo "zfac" (Some "eos") false) = ""
  ∧ write_def_file "now" 5 7 "out.def" (World [] ∅ ∅)
    = (Done tt,
       World [] (<["out.def" :=
                     TOOL_LINE +:+ NL +:+ "# Time stamp: " +:+ "now" +:+ NL]>
                   ∅) ∅).
Proof.
  pose proof (unrecognized_identity_falls_through
                5 7 "now" "out.def" "zfac" "eos" false (World [] ∅ ∅))
    as (Hc & Hl & _).
  split.
  - apply Hc; discriminate.
  - apply Hl;
      [discriminate | discriminate | discriminate | apply not_elem_of_empty].
Defined.

(** ** Registration *)

(** C4, as the claim states it, fails: a declaration with a module and
    the binding flag set is appended like any other, and the registry
    then contains it. *)
Lemma append_export_accepts_module_with_isBindC :
  append_export "zfac" (Some "eos") true (World [] ∅ ∅)
  = (Done tt, World [ExportInfo "zfac" (Some "eos") true] ∅ ∅)
  ∧ ¬ (∃ e : exn,
         fst (append_export "zfac" (Some "eos") true (World [] ∅ ∅))
         = Raised e)
  ∧ ExportInfo "zfac" (Some "eos") true
    ∈ exports (snd (append_export "zfac" (Some "eos") true (World [] ∅ ∅))).
Proof.
  split; [reflexivity|]. split.
  - by intros [e He].
  - apply list_elem_of_here.
Qed.

(** C4, amended. [append_export] appends every declaration it is given,
    unchanged, at the end of the registry, also one with a module and
    the binding flag set; the registry that the module itself builds
    holds no such declaration. *)
Theorem append_export_appends_unconditionally
    (symbol_name : string) (module_name : option string) (is_c_bound : bool)
    (w : world) (fs : gmap string string) (ro : gset string) :
  append_export symbol_name module_name is_c_bound w
  = (Done tt,
     World (exports w ++ [ExportInfo symbol_name module_name is_c_bound])
           (files w) (unwritable w))
  ∧ Forall (fun d => module d = None ∨ isBindC d = false)
           (exports (snd (register_exports (world0 fs ro)))).
Proof.
  split; [reflexivity|].
  cbv [register_exports bind append_export world0 exports snd app].
  repeat (constructor; [by (left + right)|]). constructor.
Qed.

(** ** Body lines *)

(** C6. For every registry and every recognized linker (and every
    compiler identity), the body of the manifest that [write_def_file]
    writes has exactly one line per declaration, in the order of the
    registry: line [i] is the decorated resolved name of declaration
    [i].  Equal declarations at two positions give equal lines at those
    positions; nothing is merged or moved. *)
Theorem body_follows_registry
    (now filename : string) (compiler linker : Z) (w : world) :
  filename ∉ unwritable w →
  linker = LD_GCC ∨ linker = LD_CLANG ∨ linker = LD_MSVC →
  ∃ body footer : list string,
    write_def_file now compiler linker filename w
    = (Done tt,
       World (exports w)
             (<[filename :=
                  file_text ([get_export_header now linker] ++ body ++ footer)]>
                (files w))
             (unwritable w))
    ∧ footer = match get_export_footer linker with
               | Some f => [f]
               | None => []
               end
    ∧ length body = length (exports w)
    ∧ (∀ (i : nat) (d : export_info),
         exports w !! i = Some d →
         body !! i
         = Some (if linker =? LD_GCC
                 then TAB +:+ get_export_statement compiler d +:+ ";"
                 else TAB +:+ get_export_statement compiler d))
    ∧ (∀ i j : nat, exports w !! i = exports w !! j → body !! i = body !! j).
Proof.
  intros Hw Hl.
  exists (body_lines compiler linker (exports w)).
  eexists. split; [|split; [reflexivity|]].
  - rewrite write_def_file_run.
    by destruct (decide (filename ∈ unwritable w)).
  - assert (body_lines compiler linker (exports w)
            = map (fun d => if linker =? LD_GCC
                            then TAB +:+ get_export_statement compiler d +:+ ";"
                            else TAB +:+ get_export_statement compiler d)
                  (exports w)) as ->.
    { unfold body_lines.
      destruct Hl as [->|[->| ->]]; cbn [Z.eqb LD_GCC LD_CLANG LD_MSVC
        Pos.eqb orb]; [|done..].
      apply map_ext. intros d. by rewrite append_assoc. }
    split; [by rewrite length_map|]. split.
    + intros i d Hd. by rewrite list_lookup_fmap, Hd.
    + intros i j Hij. by rewrite !list_lookup_fmap, Hij.
Qed.

Lemma body_follows_registry_witness :
  ∃ body : list string,
    files (snd (write_def_file "now" GENERIC LD_GCC "out.version"
                  (World [ExportInfo "thermopack_init_c" None true;
                          ExportInfo "thermopack_init_c" None true;
                          ExportInfo "zfac" (Some "eos") false] ∅ ∅)))
      !! "out.version"
    = Some (file_text ([get_export_header "now" LD_GCC] ++ body
                       ++ [NL +:+ FOOTER]))
    ∧ body !! 0%nat = Some (TAB +:+ "thermopack_init_c;")
    ∧ body !! 1%nat = Some (TAB +:+ "thermopack_init_c;")
    ∧ body !! 2%nat = Some (TAB +:+ "*zfac*;")
    ∧ length body = 3%nat.
Proof.
  destruct (body_follows_registry "now" "out.version" GENERIC LD_GCC
              (World [ExportInfo "thermopack_init_c" None true;
                      ExportInfo "thermopack_init_c" None true;
                      ExportInfo "zfac" (Some "eos") false] ∅ ∅))
    as (body & footer & Hrun & -> & Hlen & Hline & _).
  - apply not_elem_of_empty.
  - by left.
  - exists body. rewrite Hrun. cbn [snd files].
    rewrite lookup_insert_eq.
    split; [reflexivity|].
    split; [exact (Hline 0%nat _ eq_refl)|].
    split; [exact (Hline 1%nat _ eq_refl)|].
    split; [exact (Hline 2%nat _ eq_refl)|exact Hlen].
Defined.

(** ** Determinism *)

(** C7. The manifest is a function of the declarations, the compiler and
    the linker, except for the time stamp: for a registry, a compiler
    and a linker there is one text [rest] such that every run, at
    whatever time and in whatever world that holds this registry, writes
    the tool line, the line "# Time stamp: " followed by its time, and
    then [rest].  Two runs with the same inputs so differ in the time
    stamp line alone. *)
Theorem manifest_determined_up_to_time_stamp
    (ds : list export_info) (compiler linker : Z) :
  ∃ rest : string,
    ∀ (now filename : string) (w : world),
      exports w = ds →
      filename ∉ unwritable w →
      write_def_file now compiler linker filename w
      = (Done tt,
         World ds
               (<[filename :=
                    TOOL_LINE +:+ NL +:+ "# Time stamp: " +:+ now
                    +:+ NL +:+ rest]>
                  (files w))
               (unwritable w)).
Proof.
  destruct (after_stamp_starts_line linker
              (file_text (body_lines compiler linker ds
                          ++ match get_export_footer linker with
                             | Some footer => [footer]
                             | None => []
                             end))) as [rest Hrest].
  exists rest. intros now filename w <- Hw.
  rewrite write_def_file_run.
  destruct (decide (filename ∈ unwritable w)); [done|].
  do 3 f_equal.
  unfold manifest_lines. cbn [app file_text foldr].
  match goal with
  | |- context [foldr ?f "" ?l] => change (foldr f "" l) with (file_text l)
  end.
  rewrite get_export_header_split, !append_assoc.
  by rewrite Hrest.
Qed.

Lemma manifest_determined_up_to_time_stamp_witness :
  ∃ rest : string,
    write_def_file "2024-01-01T00:00:00" IFORT LD_MSVC "thermopack.def"
      (World [ExportInfo "zfac" (Some "eos") false] ∅ ∅)
    = (Done tt,
       World [ExportInfo "zfac" (Some "eos") false]
             (<["thermopack.def" :=
                  TOOL_LINE +:+ NL +:+ "# Time stamp: "
                  +:+ "2024-01-01T00:00:00" +:+ NL +:+ rest]> ∅) ∅)
    ∧ write_def_file "2025-06-30T12:30:00" IFORT LD_MSVC "thermopack.def"
        (World [ExportInfo "zfac" (Some "eos") false] ∅ ∅)
      = (Done tt,
         World [ExportInfo "zfac" (Some "eos") false]
               (<["thermopack.def" :=
                    TOOL_LINE +:+ NL +:+ "# Time stamp: "
                    +:+ "2025-06-30T12:30:00" +:+ NL +:+ rest]> ∅) ∅).
Proof.
  destruct (manifest_determined_up_to_time_stamp
              [ExportInfo "zfac" (Some "eos") false] IFORT LD_MSVC)
    as [rest Hrest].
  exists rest.
  split; apply Hrest; [reflexivity | apply not_elem_of_empty
                       | reflexivity | apply not_elem_of_empty].
Defined.

(** ** The entry point *)

(** C8. The entry point writes three manifests and touches no other
    path: the GENERIC / LD_GCC manifest at libthermopack_export.version,
    the GENERIC / LD_CLANG manifest at libthermopack_export.symbols and
    the IFORT / LD_MSVC manifest at thermopack.def. *)
Theorem main_writes_three_manifests
    (now1 now2 now3 : string) (w : world) :
  "libthermopack_export.version" ∉ unwritable w →
  "libthermopack_export.symbols" ∉ unwritable w →
  "thermopack.def" ∉ unwritable w →
  main now1 now2 now3 w
  = (Done tt,
     World (exports w)
       (<["thermopack.def" :=
            file_text (manifest_lines now3 IFORT LD_MSVC (exports w))]>
          (<["libthermopack_export.symbols" :=
               file_text (manifest_lines now2 GENERIC LD_CLANG (exports w))]>
             (<["libthermopack_export.version" :=
                  file_text (manifest_lines now1 GENERIC LD_GCC (exports w))]>
                (files w))))
       (unwritable w))
  ∧ dom (files (snd (main now1 now2 now3 w)))
    = dom (files w)
      ∪ {[ "libthermopack_export.version"; "libthermopack_export.symbols";
           "thermopack.def" ]}
  ∧ ∀ path : string,
      path ≠ "libthermopack_export.version" →
      path ≠ "libthermopack_export.symbols" →
      path ≠ "thermopack.def" →
      files (snd (main now1 now2 now3 w)) !! path = files w !! path.
Proof.
  intros H1 H2 H3.
  assert (main now1 now2 now3 w
          = (Done tt,
             World (exports w)
               (<["thermopack.def" :=
                    file_text (manifest_lines now3 IFORT LD_MSVC (exports w))]>
                  (<["libthermopack_export.symbols" :=
                       file_text
                         (manifest_lines now2 GENERIC LD_CLANG (exports w))]>
                     (<["libthermopack_export.version" :=
                          file_text
                            (manifest_lines now1 GENERIC LD_GCC (exports w))]>
                        (files w))))
               (unwritable w))) as Hmain.
  { unfold main.
    unfold bind at 1. rewrite write_def_file_run, decide_False by done.
    unfold bind at 1. rewrite write_def_file_run.
    cbn [exports files unwritable]. rewrite decide_False by done.
    rewrite write_def_file_run.
    cbn [exports files unwritable]. by rewrite decide_False by done. }
  rewrite Hmain. cbn [snd files].
  split; [reflexivity|]. split.
  - rewrite !dom_insert_L. apply set_eq. intros path.
    rewrite !elem_of_union, !elem_of_singleton. tauto.
  - intros path Hp1 Hp2 Hp3. by rewrite !lookup_insert_ne.
Qed.

Lemma main_writes_three_manifests_witness :
  dom (files (snd (main "t1" "t2" "t3" (World registry ∅ ∅))))
  = ({[ "libthermopack_export.version"; "libthermopack_export.symbols";
        "thermopack.def" ]} : gset string).
Proof.
  destruct (main_writes_three_manifests "t1" "t2" "t3" (World registry ∅ ∅))
    as (_ & Hdom & _); [apply not_elem_of_empty..|].
  rewrite Hdom. cbn [files].
  rewrite dom_empty_L. apply (left_id_L ∅ (∪)).
Defined.

(** ** The registry is only read *)

Lemma register_exports_run (fs : gmap string string) (ro : gset string) :
  register_exports (world0 fs ro) = (Done tt, World registry fs ro).
Proof. reflexivity. Qed.

Lemma write_def_file_frame (now : string) (compiler linker : Z)
    (filename : string) (w : world) :
  exports (snd (write_def_file now compiler linker filename w)) = exports w
  ∧ unwritable (snd (write_def_file now compiler linker filename w))
    = unwritable w.
Proof.
  rewrite write_def_file_run.
  by destruct (decide (filename ∈ unwritable w)).
Qed.

(** C9. Generating a manifest never modifies the registry: after
    [write_def_file], whether it completes or fails, [exports] is the
    list it was, with the same records at the same positions; the same
    holds after any sequence of generations, so each of them reads the
    registry the first one read.  The resolver, the header and the
    footer are functions of their arguments and have no access to the
    registry at all. *)
Theorem generation_preserves_registry
    (now : string) (compiler linker : Z) (filename : string)
    (calls : list (string * Z * Z * string)) (w : world) :
  exports (snd (write_def_file now compiler linker filename w)) = exports w
  ∧ exports (snd (generate_all calls w)) = exports w
  ∧ exports (snd (write_def_file now compiler linker filename
                    (snd (generate_all calls w))))
    = exports w.
Proof.
  assert (∀ cs w', exports (snd (generate_all cs w')) = exports w') as Hall.
  { induction cs as [|[[[now' compiler'] linker'] filename'] cs IH];
      intros w'; [reflexivity|].
    unfold generate_all in *. cbn [for_each]. unfold bind at 1.
    pose proof (write_def_file_frame now' compiler' linker' filename' w')
      as [Hexp _].
    destruct (write_def_file now' compiler' linker' filename' w')
      as [[[]|e] w'']; cbn [snd] in *; [|done].
    by rewrite IH. }
  split; [apply write_def_file_frame|].
  split; [apply Hall|].
  destruct (write_def_file_frame now compiler linker filename
              (snd (generate_all calls w))) as [-> _].
  apply Hall.
Qed.

(** ** Occurrences of a text in a manifest *)

Section Occurrences.

Variable pat : string.

Lemma append_eq_append (a b c d : string) :
  a +:+ b = c +:+ d →
  (∃ k, c = a +:+ k ∧ b = k +:+ d) ∨ (∃ k, a = c +:+ k ∧ d = k +:+ b).
Proof.
  revert c. induction a as [|x a IH]; intros c Heq.
  - left. by exists c.
  - destruct c as [|y c].
    + right. by exists (String x a).
    + injection Heq as -> Heq.
      destruct (IH c Heq) as [(k & -> & ->)|(k & -> & ->)];
        [left | right]; by exists k.
Qed.

Lemma has_char_middle (c : ascii) (k j : string) :
  has_char c (k +:+ String c j) = true.
Proof.
  induction k as [|x k IH].
  - change (has_char c ("" +:+ String c j))
      with (Ascii.eqb c c || has_char c j).
    by rewrite Ascii.eqb_refl.
  - change (has_char c (String x k +:+ String c j))
      with (Ascii.eqb c x || has_char c (k +:+ String c j)).
    rewrite IH. apply orb_true_r.
Qed.

Lemma starts_with_append (post : string) :
  starts_with pat (pat +:+ post) = true.
Proof.
  induction pat as [|x q IH]; [reflexivity|].
  change (starts_with (String x q) (String x q +:+ post))
    with (Ascii.eqb x x && starts_with q (q +:+ post)).
  by rewrite Ascii.eqb_refl, IH.
Qed.

Lemma occursb_complete (s : string) : occurs pat s → occursb pat s = true.
Proof.
  intros (pre & post & ->).
  induction pre as [|x pre IH].
  - change ("" +:+ pat +:+ post) with (pat +:+ post).
    destruct (pat +:+ post) eqn:E; cbn [occursb];
      by rewrite <- E, starts_with_append.
  - change (String x pre +:+ pat +:+ post)
      with (String x (pre +:+ pat +:+ post)).
    cbn [occursb]. rewrite IH. apply orb_true_r.
Qed.

Lemma not_occurs_by_check (s : string) :
  occursb pat s = false → ¬ occurs pat s.
Proof. intros Hb Ho. apply occursb_complete in Ho. congruence. Qed.

(** A character that is not in [pat] separates the occurrences. *)
Lemma occurs_separated (c : ascii) (a b : string) :
  has_char c pat = false →
  pat ≠ "" →
  occurs pat (a +:+ String c b) → occurs pat a ∨ occurs pat b.
Proof.
  intros Hc Hne (pre & post & Heq).
  destruct (append_eq_append _ _ _ _ Heq) as [(k & -> & Hk)|(k & -> & Hk)].
  - destruct k as [|y k].
    + change ("" +:+ pat +:+ post) with (pat +:+ post) in Hk.
      destruct pat as [|p q] eqn:Epat; [done|].
      injection Hk as <- _. cbn [has_char] in Hc.
      by rewrite Ascii.eqb_refl in Hc.
    + injection Hk as _ ->. right. by exists k, post.
  - destruct (append_eq_append _ _ _ _ Hk) as [(j & -> & Hj)|(j & Hp & Hj)].
    + left. by exists pre, j.
    + destruct j as [|y j].
      * left. exists pre, "". rewrite Hp.
        by rewrite !append_nil_r.
      * injection Hj as <- _. rewrite Hp, has_char_middle in Hc. done.
Qed.

End Occurrences.

(** ** Manifests without a hiding block *)

Section NoLocal.

Local Abbreviation clean s := (¬ occurs LOCAL s).

Lemma clean_literal (s : string) : occursb LOCAL s = false → clean s.
Proof. apply not_occurs_by_check. Qed.

Lemma clean_NL (a b : string) : clean a → clean b → clean (a +:+ NL +:+ b).
Proof.
  intros Ha Hb Hab.
  destruct (occurs_separated LOCAL (ascii_of_nat 10) a b) as [H|H];
    [reflexivity | discriminate | exact Hab | by apply Ha | by apply Hb].
Qed.

Lemma clean_TAB (b : string) : clean b → clean (TAB +:+ b).
Proof.
  intros Hb Hab.
  destruct (occurs_separated LOCAL (ascii_of_nat 9) "" b) as [H|H];
    [reflexivity | discriminate | exact Hab | | by apply Hb].
  by apply (clean_literal "") in H.
Qed.

Lemma clean_space (a b : string) :
  clean a → clean b → clean (a +:+ " " +:+ b).
Proof.
  intros Ha Hb Hab.
  destruct (occurs_separated LOCAL " "%char a b) as [H|H];
    [reflexivity | discriminate | exact Hab | by apply Ha | by apply Hb].
Qed.

Lemma clean_body (names : list string) :
  Forall (fun name => clean name) names →
  clean (file_text (map (fun name => TAB +:+ name) names)).
Proof.
  induction 1 as [|name names Hname _ IH].
  - by apply clean_literal.
  - cbn [map file_text foldr].
    fold (file_text (map (fun name => TAB +:+ name) names)).
    rewrite append_assoc. by apply clean_TAB, clean_NL.
Qed.

Lemma clean_stamp (now rest : string) :
  clean now → clean rest →
  clean (TOOL_LINE +:+ NL +:+ "# Time stamp: " +:+ now +:+ NL +:+ rest).
Proof.
  intros Hnow Hrest.
  apply clean_NL; [by apply clean_literal|].
  change ("# Time stamp: " +:+ now +:+ NL +:+ rest)
    with ("# Time stamp:" +:+ " " +:+ now +:+ NL +:+ rest).
  apply clean_space; [by apply clean_literal|].
  by apply clean_NL.
Qed.

(** The text of a manifest for LD_CLANG or LD_MSVC. *)
Lemma clean_manifest (now : string) (linker : Z) (names : list string) :
  linker = LD_CLANG ∨ linker = LD_MSVC →
  clean now →
  Forall (fun name => clean name) names →
  clean (file_text ([get_export_header now linker]
                    ++ map (fun name => TAB +:+ name) names)).
Proof.
  intros Hl Hnow Hnames.
  pose proof (clean_body names Hnames) as Hbody.
  cbn [app file_text foldr].
  fold (file_text (map (fun name => TAB +:+ name) names)).
  rewrite get_export_header_split.
  destruct Hl as [-> | ->]; unfold linker_banner;
    cbn [Z.eqb LD_GCC LD_CLANG LD_MSVC Pos.eqb];
    rewrite !append_assoc; apply clean_stamp; try done.
  - apply clean_NL; [by apply clean_literal|done].
  - apply clean_NL; [by apply clean_literal|].
    apply (clean_NL ""); [by apply clean_literal|].
    apply clean_NL; [by apply clean_literal|].
    apply (clean_NL ""); [by apply clean_literal|].
    apply clean_NL; [by apply clean_literal|done].
Qed.

End NoLocal.

(** ** Decoration and footer *)

(** C5. For every registry, with [names] its resolved names:
    the LD_GCC manifest is the header, then one block "\t" + name + ";"
    per name, then the footer block, so that the file ends with the
    literal footer (followed by the newline that closes every block);
    for the declaration thermopack_init_c, module absent and C-bound,
    the body line is "\tthermopack_init_c;".  The LD_CLANG and LD_MSVC
    manifests are the header and one block "\t" + name per name, with no
    terminator and no footer block; when neither a name nor the time
    stamp contains "local:", no "local:" appears anywhere in them. *)
Theorem manifest_decoration_and_footer
    (now filename : string) (compiler : Z) (w : world) :
  filename ∉ unwritable w →
  let names := map (get_export_statement compiler) (exports w) in
  let written (linker : Z) (w : world) :=
    files (snd (write_def_file now compiler linker filename w)) !! filename in
  written LD_GCC w
    = Some (file_text ([get_export_header now LD_GCC]
                       ++ map (fun name => TAB +:+ name +:+ ";") names
                       ++ [NL +:+ FOOTER]))
  ∧ (∃ pre : string, written LD_GCC w = Some (pre +:+ FOOTER +:+ NL))
  ∧ written LD_GCC
      (World [ExportInfo "thermopack_init_c" None true] (files w)
             (unwritable w))
    = Some (file_text [get_export_header now LD_GCC;
                       TAB +:+ "thermopack_init_c;";
                       NL +:+ FOOTER])
  ∧ written LD_CLANG w
    = Some (file_text ([get_export_header now LD_CLANG]
                       ++ map (fun name => TAB +:+ name) names))
  ∧ written LD_MSVC w
    = Some (file_text ([get_export_header now LD_MSVC]
                       ++ map (fun name => TAB +:+ name) names))
  ∧ (¬ occurs LOCAL now →
     Forall (fun name => ¬ occurs LOCAL name) names →
     ∀ text : string,
       written LD_CLANG w = Some text ∨ written LD_MSVC w = Some text →
       ¬ occurs LOCAL text).
Proof.
  intros Hw names written.
  assert (∀ linker w',
            filename ∉ unwritable w' →
            written linker w'
            = Some (file_text (manifest_lines now compiler linker
                                 (exports w')))) as Hrun.
  { intros linker w' Hw'. unfold written. rewrite write_def_file_run.
    destruct (decide (filename ∈ unwritable w')); [done|].
    cbn [snd files]. by rewrite lookup_insert_eq. }
  assert (written LD_GCC w
          = Some (file_text ([get_export_header now LD_GCC]
                             ++ map (fun name => TAB +:+ name +:+ ";") names
                             ++ [NL +:+ FOOTER]))) as Hgcc.
  { rewrite Hrun by done. unfold manifest_lines, body_lines, names.
    cbn [Z.eqb LD_GCC Pos.eqb get_export_footer]. rewrite map_map.
    rewrite (map_ext (fun d => (TAB +:+ get_export_statement compiler d)
                               +:+ ";")
                     (fun d => TAB +:+ get_export_statement compiler d
                               +:+ ";")); [reflexivity|].
    intros d. by rewrite append_assoc. }
  assert (∀ linker, linker = LD_CLANG ∨ linker = LD_MSVC →
            written linker w
            = Some (file_text ([get_export_header now linker]
                               ++ map (fun name => TAB +:+ name) names)))
    as Hflat.
  { intros linker Hl. rewrite Hrun by done.
    unfold manifest_lines, body_lines, names.
    destruct Hl as [-> | ->];
      cbn [Z.eqb LD_GCC LD_CLANG LD_MSVC Pos.eqb orb get_export_footer];
      by rewrite map_map, app_nil_r. }
  split; [exact Hgcc|]. split; [|split; [|split; [|split]]].
  - rewrite Hgcc.
    exists (file_text ([get_export_header now LD_GCC]
                       ++ map (fun name => TAB +:+ name +:+ ";") names)
            +:+ NL).
    by rewrite app_assoc, file_text_snoc, !append_assoc.
  - by rewrite Hrun.
  - apply Hflat. by left.
  - apply Hflat. by right.
  - intros Hnow Hnames text [Htext|Htext].
    + rewrite Hflat in Htext by (by left). injection Htext as <-.
      apply clean_manifest; [by left|done..].
    + rewrite Hflat in Htext by (by right). injection Htext as <-.
      apply clean_manifest; [by right|done..].
Qed.

Lemma manifest_decoration_and_footer_witness :
  files (snd (write_def_file "2024-01-01T00:00:00" GENERIC LD_GCC "out"
                (World [ExportInfo "thermopack_init_c" None true;
                        ExportInfo "zfac" (Some "eos") false] ∅ ∅)))
    !! "out"
  = Some (file_text [get_export_header "2024-01-01T00:00:00" LD_GCC;
                     TAB +:+ "thermopack_init_c;";
                     TAB +:+ "*zfac*;";
                     NL +:+ FOOTER])
  ∧ ∀ text : string,
      files (snd (write_def_file "2024-01-01T00:00:00" GENERIC LD_CLANG "out"
                    (World [ExportInfo "thermopack_init_c" None true;
                            ExportInfo "zfac" (Some "eos") false] ∅ ∅)))
        !! "out" = Some text →
      ¬ occurs LOCAL text.
Proof.
  destruct (manifest_decoration_and_footer "2024-01-01T00:00:00" "out"
              GENERIC
              (World [ExportInfo "thermopack_init_c" None true;
                      ExportInfo "zfac" (Some "eos") false] ∅ ∅))
    as (Hgcc & _ & _ & _ & _ & Hclean).
  - apply not_elem_of_empty.
  - split; [exact Hgcc|].
    intros text Htext. apply Hclean.
    + apply not_occurs_by_check. reflexivity.
    + repeat constructor; apply not_occurs_by_check; reflexivity.
    + by left.
Defined.


(** * Further properties of the generator *)

(** ** Failure, frame and overwriting of [write_def_file] *)



(** X2. [write_def_file] touches one path only: whether it completes or
    fails, every other file keeps its content (or stays absent) and the
    set of unwritable paths is the same. *)
Theorem write_def_file_touches_only_its_path
    (now : string) (compiler linker : Z) (filename path : string)
    (w : world) :
  path ≠ filename →
  files (snd (write_def_file now compiler linker filename w)) !! path
  = files w !! path
  ∧ unwritable (snd (write_def_file now compiler linker filename w))
    = unwritable w.
Proof.
  intros Hne. rewrite write_def_file_run.
  destruct (decide (filename ∈ unwritable w)); [done|].
  cbn [snd files unwritable]. by rewrite lookup_insert_ne.
Qed.

Lemma write_def_file_touches_only_its_path_witness :
  files (snd (write_def_file "now" IFORT LD_MSVC "thermopack.def"
                (World [ExportInfo "zfac" (Some "eos") false]
                       {[ "README" := "keep" ]} ∅)))
    !! "README"
  = Some "keep".
Proof.
  destruct (write_def_file_touches_only_its_path "now" IFORT LD_MSVC
              "thermopack.def" "README"
              (World [ExportInfo "zfac" (Some "eos") false]
                     {[ "README" := "keep" ]} ∅)) as [Hfiles _].
  - discriminate.
  - rewrite Hfiles. reflexivity.
Defined.

(** X3. [write_def_file] overwrites: what the file held before does not
    matter, and of two generations into the same writable path only the
    second one shows; in particular, with the same arguments the second
    run changes nothing. *)
Theorem write_def_file_overwrites
    (now now' : string) (compiler compiler' linker linker' : Z)
    (filename old : string) (w : world) :
  filename ∉ unwritable w →
  (write_def_file now' compiler' linker' filename ;;
   write_def_file now compiler linker filename) w
  = write_def_file now compiler linker filename w
  ∧ write_def_file now compiler linker filename
      (World (exports w) (<[filename := old]> (files w)) (unwritable w))
    = write_def_file now compiler linker filename w.
Proof.
  intros Hw. split.
  - unfold bind. rewrite (write_def_file_run now'), decide_False by done.
    rewrite !write_def_file_run. cbn [exports files unwritable].
    rewrite !decide_False by done. by rewrite insert_insert_eq.
  - rewrite !write_def_file_run. cbn [exports files unwritable].
    rewrite !decide_False by done. by rewrite insert_insert_eq.
Qed.

Lemma write_def_file_overwrites_witness :
  (write_def_file "t1" IFORT LD_MSVC "out" ;;
   write_def_file "t2" GENERIC LD_GCC "out")
    (World [ExportInfo "zfac" (Some "eos") false] ∅ ∅)
  = write_def_file "t2" GENERIC LD_GCC "out"
      (World [ExportInfo "zfac" (Some "eos") false] ∅ ∅).
Proof.
  apply (write_def_file_overwrites "t2" "t1" GENERIC IFORT LD_GCC LD_MSVC
           "out" ""
           (World [ExportInfo "zfac" (Some "eos") false] ∅ ∅)).
  apply not_elem_of_empty.
Defined.

(** X4. Generations into two different writable paths do not depend on
    each other: run in either order they leave the same world. *)
Theorem write_def_file_commutes
    (now1 now2 : string) (compiler1 compiler2 linker1 linker2 : Z)
    (filename1 filename2 : string) (w : world) :
  filename1 ≠ filename2 →
  filename1 ∉ unwritable w →
  filename2 ∉ unwritable w →
  (write_def_file now1 compiler1 linker1 filename1 ;;
   write_def_file now2 compiler2 linker2 filename2) w
  = (write_def_file now2 compiler2 linker2 filename2 ;;
     write_def_file now1 compiler1 linker1 filename1) w.
Proof.
  intros Hne H1 H2. unfold bind.
  rewrite (write_def_file_run now1 compiler1 linker1 filename1 w).
  rewrite (write_def_file_run now2 compiler2 linker2 filename2 w).
  rewrite !decide_False by done.
  rewrite !write_def_file_run. cbn [exports files unwritable].
  rewrite !decide_False by done.
  by rewrite insert_insert_ne by done.
Qed.

Lemma write_def_file_commutes_witness :
  (write_def_file "t1" GENERIC LD_GCC "a.version" ;;
   write_def_file "t2" IFORT LD_MSVC "b.def")
    (World [ExportInfo "zfac" (Some "eos") false] ∅ ∅)
  = (write_def_file "t2" IFORT LD_MSVC "b.def" ;;
     write_def_file "t1" GENERIC LD_GCC "a.version")
      (World [ExportInfo "zfac" (Some "eos") false] ∅ ∅).
Proof.
  apply write_def_file_commutes;
    [discriminate | apply not_elem_of_empty | apply not_elem_of_empty].
Defined.

(** ** Registering and generating *)

(** How the body grows with the registry. *)
Lemma body_lines_snoc (compiler linker : Z) (ds : list export_info)
    (d : export_info) :
  linker = LD_GCC ∨ linker = LD_CLANG ∨ linker = LD_MSVC →
  body_lines compiler linker (ds ++ [d])
  = body_lines compiler linker ds
    ++ [if linker =? LD_GCC
        then TAB +:+ get_export_statement compiler d +:+ ";"
        else TAB +:+ get_export_statement compiler d].
Proof.
  intros [->|[->| ->]]; unfold body_lines;
    cbn [Z.eqb LD_GCC LD_CLANG LD_MSVC Pos.eqb orb];
    rewrite map_app; cbn [map]; by rewrite ?append_assoc.
Qed.

(** X5. Registering one more declaration adds exactly one line to the
    next manifest, after all the body lines there were and before the
    footer: with a recognized linker the manifest generated after
    [append_export] is the manifest generated before it with the
    decorated resolved name of the new declaration put in at the end of
    the body. *)
Theorem append_export_adds_last_body_line
    (now filename : string) (compiler linker : Z)
    (symbol_name : string) (module_name : option string) (is_c_bound : bool)
    (w : world) :
  filename ∉ unwritable w →
  linker = LD_GCC ∨ linker = LD_CLANG ∨ linker = LD_MSVC →
  ∃ body footer : list string,
    length body = length (exports w)
    ∧ files (snd (write_def_file now compiler linker filename w)) !! filename
      = Some (file_text ([get_export_header now linker] ++ body ++ footer))
    ∧ (append_export symbol_name module_name is_c_bound ;;
       write_def_file now compiler linker filename) w
      = (Done tt,
         World (exports w ++ [ExportInfo symbol_name module_name is_c_bound])
           (<[filename :=
                file_text
                  ([get_export_header now linker] ++ body
                   ++ [if linker =? LD_GCC
                       then TAB +:+ get_export_statement compiler
                              (ExportInfo symbol_name module_name is_c_bound)
                            +:+ ";"
                       else TAB +:+ get_export_statement compiler
                              (ExportInfo symbol_name module_name is_c_bound)]
                   ++ footer)]>
              (files w))
           (unwritable w)).
Proof.
  intros Hw Hl.
  exists (body_lines compiler linker (exports w)).
  exists (match get_export_footer linker with
          | Some footer => [footer]
          | None => []
          end).
  split; [|split].
  - unfold body_lines.
    destruct Hl as [->|[->| ->]];
      cbn [Z.eqb LD_GCC LD_CLANG LD_MSVC Pos.eqb orb];
      by rewrite length_map.
  - rewrite write_def_file_run, decide_False by done.
    cbn [snd files]. by rewrite lookup_insert_eq.
  - unfold bind, append_export.
    rewrite write_def_file_run. cbn [exports files unwritable].
    rewrite decide_False by done.
    unfold manifest_lines. rewrite body_lines_snoc by done.
    by rewrite <- !app_assoc.
Qed.

Lemma append_export_adds_last_body_line_witness :
  ∃ body footer : list string,
    files (snd (write_def_file "now" GNU LD_GCC "out"
                  (World [ExportInfo "thermo" (Some "eos") false] ∅ ∅)))
      !! "out"
    = Some (file_text ([get_export_header "now" LD_GCC] ++ body ++ footer))
    ∧ files (snd ((append_export "zfac" (Some "eos") false ;;
                   write_def_file "now" GNU LD_GCC "out")
                    (World [ExportInfo "thermo" (Some "eos") false] ∅ ∅)))
        !! "out"
      = Some (file_text ([get_export_header "now" LD_GCC] ++ body
                         ++ [TAB +:+ "__eos_MOD_zfac;"] ++ footer)).
Proof.
  destruct (append_export_adds_last_body_line "now" "out" GNU LD_GCC
              "zfac" (Some "eos") false
              (World [ExportInfo "thermo" (Some "eos") false] ∅ ∅))
    as (body & footer & _ & Hbefore & Hafter).
  - apply not_elem_of_empty.
  - by left.
  - exists body, footer. split; [exact Hbefore|].
    rewrite Hafter. cbn [snd files]. by rewrite lookup_insert_eq.
Defined.

(** X6. With an empty registry the loop runs no iteration: the manifest
    is the header followed, for LD_GCC, by the footer, and by nothing
    for every other linker; the compiler identity plays no role. *)
Theorem empty_registry_manifest
    (now filename : string) (compiler linker : Z) (w : world) :
  exports w = [] →
  filename ∉ unwritable w →
  write_def_file now compiler linker filename w
  = (Done tt,
     World []
       (<[filename :=
            if linker =? LD_GCC
            then get_export_header now linker +:+ NL
                 +:+ NL +:+ FOOTER +:+ NL
            else get_export_header now linker +:+ NL]>
          (files w))
       (unwritable w)).
Proof.
  intros Hnil Hw. rewrite write_def_file_run, decide_False by done.
  rewrite Hnil. unfold manifest_lines, body_lines, get_export_footer.
  destruct (linker =? LD_GCC);
    [|destruct ((linker =? LD_CLANG) || (linker =? LD_MSVC))];
    cbn [map app file_text foldr]; unfold FOOTER;
    by rewrite ?append_assoc, ?append_nil_r.
Qed.

Lemma empty_registry_manifest_witness :
  write_def_file "now" PGF90 LD_CLANG "out.symbols" (World [] ∅ ∅)
  = (Done tt,
     World [] (<["out.symbols" :=
                   get_export_header "now" LD_CLANG +:+ NL]> ∅) ∅).
Proof.
  apply (empty_registry_manifest "now" "out.symbols" PGF90 LD_CLANG
           (World [] ∅ ∅)); [reflexivity | apply not_elem_of_empty].
Defined.

(** ** Failure in the entry point *)

(** X7. The entry point stops at the first path it cannot open: a
    failure on the first path leaves the world as it was; a failure on
    the second or third path leaves the manifests written before it in
    place and the later ones unwritten. *)
Theorem main_stops_at_first_failure
    (now1 now2 now3 : string) (w : world) :
  ("libthermopack_export.version" ∈ unwritable w →
   main now1 now2 now3 w
   = (Raised (OSError "libthermopack_export.version"), w))
  ∧ ("libthermopack_export.version" ∉ unwritable w →
     "libthermopack_export.symbols" ∈ unwritable w →
     main now1 now2 now3 w
     = (Raised (OSError "libthermopack_export.symbols"),
        World (exports w)
          (<["libthermopack_export.version" :=
               file_text (manifest_lines now1 GENERIC LD_GCC (exports w))]>
             (files w))
          (unwritable w)))
  ∧ ("libthermopack_export.version" ∉ unwritable w →
     "libthermopack_export.symbols" ∉ unwritable w →
     "thermopack.def" ∈ unwritable w →
     main now1 now2 now3 w
     = (Raised (OSError "thermopack.def"),
        World (exports w)
          (<["libthermopack_export.symbols" :=
               file_text (manifest_lines now2 GENERIC LD_CLANG (exports w))]>
             (<["libthermopack_export.version" :=
                  file_text (manifest_lines now1 GENERIC LD_GCC (exports w))]>
                (files w)))
          (unwritable w))).
Proof.
  unfold main. split; [|split].
  - intros H1. unfold bind at 1.
    by rewrite write_def_file_run, decide_True by done.
  - intros H1 H2. unfold bind at 1.
    rewrite write_def_file_run, decide_False by done.
    unfold bind at 1. rewrite write_def_file_run.
    cbn [exports files unwritable]. by rewrite decide_True by done.
  - intros H1 H2 H3. unfold bind at 1.
    rewrite write_def_file_run, decide_False by done.
    unfold bind at 1. rewrite write_def_file_run.
    cbn [exports files unwritable]. rewrite decide_False by done.
    rewrite write_def_file_run.
    cbn [exports files unwritable]. by rewrite decide_True by done.
Qed.

Lemma main_stops_at_first_failure_witness :
  main "t1" "t2" "t3"
    (World [] ∅ {[ "libthermopack_export.version" ]})
  = (Raised (OSError "libthermopack_export.version"),
     World [] ∅ {[ "libthermopack_export.version" ]})
  ∧ fst (main "t1" "t2" "t3" (World [] ∅ {[ "libthermopack_export.symbols" ]}))
    = Raised (OSError "libthermopack_export.symbols")
  ∧ fst (main "t1" "t2" "t3" (World [] ∅ {[ "thermopack.def" ]}))
    = Raised (OSError "thermopack.def").
Proof.
  split; [|split].
  - apply (main_stops_at_first_failure "t1" "t2" "t3"
             (World [] ∅ {[ "libthermopack_export.version" ]})).
    cbn [unwritable]. apply elem_of_singleton_2. reflexivity.
  - destruct (main_stops_at_first_failure "t1" "t2" "t3"
                (World [] ∅ {[ "libthermopack_export.symbols" ]}))
      as (_ & H2 & _).
    rewrite H2; [reflexivity | |].
    + cbn [unwritable]. intros Hin. apply elem_of_singleton_1 in Hin.
      discriminate Hin.
    + cbn [unwritable]. apply elem_of_singleton_2. reflexivity.
  - destruct (main_stops_at_first_failure "t1" "t2" "t3"
                (World [] ∅ {[ "thermopack.def" ]}))
      as (_ & _ & H3).
    rewrite H3; [reflexivity | | |].
    + cbn [unwritable]. intros Hin. apply elem_of_singleton_1 in Hin.
      discriminate Hin.
    + cbn [unwritable]. intros Hin. apply elem_of_singleton_1 in Hin.
      discriminate Hin.
    + cbn [unwritable]. apply elem_of_singleton_2. reflexivity.
Defined.

(** ** More on the resolver *)

Section Cancellation.

Lemma append_eq_empty (a b : string) : a +:+ b = "" → a = "" ∧ b = "".
Proof. destruct a; [done | discriminate]. Qed.

Lemma append_length (a b : string) :
  String.length (a +:+ b) = (String.length a + String.length b)%nat.
Proof.
  induction a as [|x a IH]; [reflexivity|].
  change (S (String.length (a +:+ b))
          = S (String.length a + String.length b)).
  by rewrite IH.
Qed.

Lemma append_cancel_l (a x y : string) : a +:+ x = a +:+ y → x = y.
Proof.
  induction a as [|c a IH]; [done|].
  intros Heq. injection Heq as Heq. by apply IH.
Qed.

Lemma append_cancel_r (b x y : string) : x +:+ b = y +:+ b → x = y.
Proof.
  revert y. induction x as [|c x IH]; intros [|c' y] Heq.
  - reflexivity.
  - apply (f_equal String.length) in Heq.
    change (String.length b = S (String.length (y +:+ b))) in Heq.
    rewrite append_length in Heq. lia.
  - apply (f_equal String.length) in Heq.
    change (S (String.length (x +:+ b)) = String.length b) in Heq.
    rewrite append_length in Heq. lia.
  - injection Heq as -> Heq. f_equal. by apply IH.
Qed.

End Cancellation.

(** X8. The resolver returns the empty string in two cases only: a
    C-bound symbol without module whose own name is empty, and a
    declaration with a module under a compiler identity that is none of
    GNU, IFORT, PGF90, GENERIC.  Under a recognized compiler a
    declaration with a module never resolves to the empty string. *)
Theorem get_export_statement_empty_iff (compiler : Z) (d : export_info) :
  get_export_statement compiler d = ""
  ↔ (module d = None ∧ isBindC d = true ∧ method d = "")
    ∨ (module d ≠ None ∧ compiler ≠ GNU ∧ compiler ≠ IFORT
       ∧ compiler ≠ PGF90 ∧ compiler ≠ GENERIC).
Proof.
  destruct d as [s [m|] b]; unfold get_export_statement; cbn [module method
    isBindC].
  - destruct (Z.eqb_spec compiler GNU) as [->|Hg].
    { split; [discriminate|]. intros [[H _]|(_ & H & _)]; done. }
    destruct (Z.eqb_spec compiler IFORT) as [->|Hi].
    { split.
      - intros H. apply append_eq_empty in H as [H _].
        apply append_eq_empty in H as [H _].
        apply append_eq_empty in H as [_ H]. discriminate H.
      - intros [[H _]|(_ & _ & H & _)]; done. }
    destruct (Z.eqb_spec compiler PGF90) as [->|Hp].
    { split.
      - intros H. apply append_eq_empty in H as [_ H]. discriminate H.
      - intros [[H _]|(_ & _ & _ & H & _)]; done. }
    destruct (Z.eqb_spec compiler GENERIC) as [->|Hc].
    { split; [discriminate|]. intros [[H _]|(_ & _ & _ & _ & H)]; done. }
    split; [|done]. intros _. by right.
  - destruct b.
    + split; [by left|]. by intros [(_ & _ & H)|[H _]].
    + split.
      * intros H. apply append_eq_empty in H as [_ H]. discriminate H.
      * intros [(_ & H & _)|[H _]]; done.
Qed.

(** X9. Under a recognized compiler, or without a module, the resolved
    name contains the symbol name. *)
Theorem resolved_name_contains_symbol (compiler : Z) (d : export_info) :
  module d = None ∨ compiler = GNU ∨ compiler = IFORT ∨ compiler = PGF90
  ∨ compiler = GENERIC →
  occurs (method d) (get_export_statement compiler d).
Proof.
  destruct d as [s [m|] b]; unfold get_export_statement; cbn [module method
    isBindC]; intros H.
  - destruct H as [H|[->|[->|[->| ->]]]]; [discriminate H|..];
      cbn [Z.eqb GNU IFORT PGF90 GENERIC Pos.eqb].
    + exists ("__" +:+ m +:+ "_MOD_"), "".
      by rewrite !append_assoc, append_nil_r.
    + exists (m +:+ "_mp_"), "_". by rewrite !append_assoc.
    + exists (m +:+ "_"), "_". by rewrite !append_assoc.
    + exists "*", "*". by rewrite !append_assoc.
  - destruct b.
    + exists "", "". by rewrite append_nil_r.
    + by exists "", "_".
Qed.

Lemma resolved_name_contains_symbol_witness :
  occurs "zfac"
    (get_export_statement IFORT (ExportInfo "zfac" (Some "eos") false)).
Proof.
  apply (resolved_name_contains_symbol IFORT
           (ExportInfo "zfac" (Some "eos") false)).
  right. right. left. reflexivity.
Defined.

(** X10. Within one module and under one recognized compiler, two
    declarations that resolve to the same name have the same symbol
    name, whatever their binding flags; the same holds for two
    declarations without module that have the same binding flag. *)
Theorem get_export_statement_injective_in_symbol
    (compiler : Z) (module_name : option string) (s1 s2 : string)
    (b1 b2 : bool) :
  module_name = None ∨ compiler = GNU ∨ compiler = IFORT
  ∨ compiler = PGF90 ∨ compiler = GENERIC →
  (module_name = None → b1 = b2) →
  get_export_statement compiler (ExportInfo s1 module_name b1)
  = get_export_statement compiler (ExportInfo s2 module_name b2) →
  s1 = s2.
Proof.
  intros Hc Hb. unfold get_export_statement. cbn [module method isBindC].
  destruct module_name as [m|].
  - destruct Hc as [H|[->|[->|[->| ->]]]]; [discriminate H|..];
      cbn [Z.eqb GNU IFORT PGF90 GENERIC Pos.eqb]; intros Heq.
    + by apply append_cancel_l in Heq.
    + apply append_cancel_r in Heq. by apply append_cancel_l in Heq.
    + apply append_cancel_r in Heq. by apply append_cancel_l in Heq.
    + apply append_cancel_r in Heq. by apply append_cancel_l in Heq.
  - rewrite <- (Hb eq_refl). destruct b1; [done|].
    intros Heq. by apply append_cancel_r in Heq.
Qed.

Lemma get_export_statement_injective_in_symbol_witness :
  get_export_statement PGF90 (ExportInfo "zfac" (Some "eos") true)
  = get_export_statement PGF90 (ExportInfo "zfac" (Some "eos") false)
  ∧ "zfac" = "zfac".
Proof.
  split; [reflexivity|].
  apply (get_export_statement_injective_in_symbol PGF90 (Some "eos")
           "zfac" "zfac" true false).
  - right. right. right. left. reflexivity.
  - discriminate.
  - reflexivity.
Defined.
